(** * markers/uncollect.py: the "uncollect" / "uncollectif" collection filter

    A shallow embedding of [get_uncollect_function], [uncollectif] and
    [pytest_collection_modifyitems], and the properties of the filter.

    Python objects are modelled by the interface the module reads from
    them: a marker is its [.args], its [.kwargs] and, for the iterable
    shape, the list its iteration yields; a test item is its name, its
    keyword markers, its configuration, its fixture values and its
    declared fixture names.  Calls to the logger (cfme.utils.log) write
    to a sink nothing in this module reads back; they are left out. *)

From stdpp Require Import gmap strings list fin_maps pretty.

Local Open Scope string_scope.
Local Open Scope Z_scope.
Local Open Scope list_scope.

(** ** Python values and exceptions *)

(** First-order Python values: what fixtures hold, what predicates
    return, what a [reason=] keyword carries. *)
Inductive value : Type :=
  | VNone
  | VBool (b : bool)
  | VInt (n : Z)
  | VStr (s : string)
  | VObj (repr : string).

(** The exceptions the module can see.  [Exception] is the plain
    built-in class with its message; [Raised] stands for whatever a
    predicate or a collaborator raises on its own. *)
Inductive exn : Type :=
  | TypeError
  | IndexError
  | KeyError (key : string)
  | Exception (msg : string)
  | Raised (what : string).

Inductive result (A : Type) : Type :=
  | Ok (a : A)
  | Err (e : exn).
Arguments Ok {A} a.
Arguments Err {A} e.

#[global] Instance value_eq_dec : EqDecision value.
Proof. solve_decision. Defined.
#[global] Instance exn_eq_dec : EqDecision exn.
Proof. solve_decision. Defined.
#[global] Instance result_eq_dec `{EqDecision A} : EqDecision (result A).
Proof. solve_decision. Defined.

Definition rbind {A B} (r : result A) (k : A → result B) : result B :=
  match r with
  | Ok a => k a
  | Err e => Err e
  end.

Notation "x ←ᵣ r ; k" := (rbind r (λ x, k))
  (at level 20, r at level 100, k at level 200, right associativity,
   format "x  ←ᵣ  r ;  '/' k").

(** [bool(v)]. *)
Definition truthy (v : value) : bool :=
  match v with
  | VNone => false
  | VBool b => b
  | VInt n => negb (n =? 0)
  | VStr s => negb (String.eqb s "")
  | VObj _ => true
  end.

(** [str(v)], as ["{}".format(v)] renders it. *)
Definition str (v : value) : string :=
  match v with
  | VNone => "None"
  | VBool true => "True"
  | VBool false => "False"
  | VInt n => pretty n
  | VStr s => s
  | VObj r => r
  end.

(** What a marker's positional argument can be: a plain function (the
    only thing [inspect.getargspec] accepts), some other callable such as
    a partial, or a value that is not callable at all.  [call] is the
    whole behaviour of the callable on a positional argument list. *)
Inductive PyObj : Type :=
  | PyFunction (argnames : list string) (call : list value → result value)
  | PyCallable (call : list value → result value)
  | PyLit (v : value).

(** [bool(o)]: functions and other objects are truthy. *)
Definition truthy_obj (o : PyObj) : bool :=
  match o with
  | PyLit v => truthy v
  | _ => true
  end.

(** [inspect.getargspec(o).args] *)
Definition getargspec (o : PyObj) : result (list string) :=
  match o with
  | PyFunction argnames _ => Ok argnames
  | _ => Err TypeError
  end.

(** Calling [o] on the positional arguments [args]. *)
Definition call_obj (o : PyObj) (args : list value) : result value :=
  match o with
  | PyFunction _ call => call args
  | PyCallable call => call args
  | PyLit _ => Err TypeError
  end.

(** [l[0]] *)
Definition index0 {A} (l : list A) : result A :=
  match l with
  | x :: _ => Ok x
  | [] => Err IndexError
  end.

(** ** Markers and items *)

(** A marker-like object: [.args] and [.kwargs]. *)
Record Mark : Type := mkMark {
  args : list PyObj;
  kwargs : gmap string value
}.

(** What [item.get_marker] hands back: a mark decorator (an instance of
    [MARKDECORATOR_TYPE]), or a mark info, which has [.args] and
    [.kwargs] of its own and iterates over marker-like objects. *)
Inductive MarkerObj : Type :=
  | MarkDecorator (m : Mark)
  | MarkInfo (m : Mark) (marks : list Mark).

Definition marker_mark (marker : MarkerObj) : Mark :=
  match marker with
  | MarkDecorator m => m
  | MarkInfo m _ => m
  end.

(** The plugin registered as 'appliance-holder'. *)
Record Plugin : Type := mkPlugin { held_appliance : value }.

Record Config : Type := mkConfig { pluginmanager : gmap string Plugin }.

Record Item : Type := mkItem {
  name : string;
  keywords : gmap string MarkerObj;
  config : Config;
  (* what extract_fixtures_values(item) gives *)
  fixtures : result (gmap string value);
  (* item._request.funcargnames *)
  funcargnames : list string
}.

(** [item.get_marker(key)]: the marker object, or Python's [None].  A
    marker object is truthy, so [if marker:] asks whether there is one. *)
Definition get_marker (item : Item) (key : string) : option MarkerObj :=
  keywords item !! key.

(** [config.pluginmanager.getplugin(key)]: the plugin, a truthy object,
    or [None]. *)
Definition getplugin (c : Config) (key : string) : option Plugin :=
  pluginmanager c !! key.

(** Modelled from the spec: [cfme.utils.pytest_shortcuts.extract_fixtures_values]
    is not part of this module.  The spec's fixture resolver maps an item
    to its mapping from fixture name to value and may raise a missing-key
    condition; the item carries that outcome. *)
Definition extract_fixtures_values (item : Item) : result (gmap string value) :=
  fixtures item.

(** ** get_uncollect_function *)

Definition get_uncollect_function (marker_or_markdecorator : MarkerObj) : result PyObj :=
  match marker_or_markdecorator with
  | MarkDecorator m => index0 (args m)
  | MarkInfo _ marks => first ←ᵣ index0 marks; index0 (args first)
  end.

(** ** uncollectif *)

(** [marker.kwargs.get('reason', 'No reason given')] *)
Definition kwargs_reason (m : Mark) : value :=
  default (VStr "No reason given") (kwargs m !! "reason").

(** [repr] of a list of parameter names, as [format] prints it.  The
    names are Python identifiers, whose [repr] is the name in single
    quotes. *)
Definition repr_name (s : string) : string := "'" +:+ s +:+ "'".

Fixpoint join_comma (l : list string) : string :=
  match l with
  | [] => ""
  | [x] => x
  | x :: rest => x +:+ ", " +:+ join_comma rest
  end.

Definition repr_names (l : list string) : string :=
  "[" +:+ join_comma (repr_name <$> l) +:+ "]".

(** [list(set(arg_names) - set(item._request.funcargnames))]; Python
    leaves the order of a set open, the properties below only use
    membership. *)
Definition missing_argnames (arg_names funcargs : list string) : list string :=
  elements ((list_to_set arg_names : gset string) ∖ list_to_set funcargs).

Definition msg_not_in_prototype (func_name : string) (missing : list string) : string :=
  "You asked for a fixture which wasn't in the function " +:+ func_name
  +:+ " prototype " +:+ repr_names missing.

Definition msg_not_ready (func_name : string) : string :=
  "Failed to uncollect " +:+ func_name +:+ ", best guess a fixture wasn't ready".

(** [values[arg]] *)
Definition getitem (values : gmap string value) (arg : string) : result value :=
  match values !! arg with
  | Some v => Ok v
  | None => Err (KeyError arg)
  end.

(** [[values[arg] for arg in arg_names]] *)
Fixpoint lookup_args (values : gmap string value) (arg_names : list string)
  : result (list value) :=
  match arg_names with
  | [] => Ok []
  | arg :: rest =>
      v ←ᵣ getitem values arg;
      vs ←ᵣ lookup_args values rest;
      Ok (v :: vs)
  end.

(** The body of the second [try]: either the bare [return] (the test
    "has already been uncollected") or the bound argument list. *)
Inductive bound : Type :=
  | AlreadyUncollected
  | Args (vs : list value).

Definition global_vars (item : Item) : gmap string value :=
  match getplugin (config item) "appliance-holder" with
  | Some holder => {[ "appliance" := held_appliance holder ]}
  | None => ∅
  end.

Definition bind_args (item : Item) (arg_names : list string) : result bound :=
  values ←ᵣ extract_fixtures_values item;
  let values := global_vars item ∪ values in
  if bool_decide (arg_names ≠ []) && bool_decide (values = ∅)
  then Ok AlreadyUncollected
  else vs ←ᵣ lookup_args values arg_names; Ok (Args vs).

(** The result is what the Python function returns: [Some b] for a
    boolean, [None] for the bare [return]. *)
Definition uncollectif (item : Item) : result (option bool) :=
  match get_marker item "uncollectif" with
  | Some marker =>
      match f ←ᵣ get_uncollect_function marker; getargspec f with
      | Err TypeError =>
          a ←ᵣ index0 (args (marker_mark marker));
          Ok (Some (negb (truthy_obj a)))
      | Err e => Err e
      | Ok arg_names =>
          match bind_args item arg_names with
          | Err (KeyError _) =>
              let missing := missing_argnames arg_names (funcargnames item) in
              let func_name := name item in
              if bool_decide (missing ≠ [])
              then Err (Exception (msg_not_in_prototype func_name missing))
              else Err (Exception (msg_not_ready func_name))
          | Err e => Err e
          | Ok AlreadyUncollected => Ok None
          | Ok (Args vs) =>
              f ←ᵣ index0 (args (marker_mark marker));
              retval ←ᵣ call_obj f vs;
              Ok (Some (negb (truthy retval)))
          end
      end
  | None => Ok (Some true)
  end.

(** ** pytest_collection_modifyitems *)

(** What the hook writes to: the records written to uncollected.log (the
    file holds their concatenation) and [store.uncollection_stats]. *)
Record Store : Type := mkStore {
  uncollected_log : list string;
  uncollection_stats : gmap string Z
}.

(** State and exceptions: a computation runs from a store to a result
    and the store it leaves behind, also when it raises. *)
Definition M (A : Type) : Type := Store → result A * Store.

Definition ret {A} (a : A) : M A := λ s, (Ok a, s).

Definition bind {A B} (m : M A) (k : A → M B) : M B :=
  λ s, match m s with
       | (Ok a, s') => k a s'
       | (Err e, s') => (Err e, s')
       end.

Definition lift {A} (r : result A) : M A := λ s, (r, s).

Notation "x ←ₘ m ; k" := (bind m (λ x, k))
  (at level 20, m at level 100, k at level 200, right associativity,
   format "x  ←ₘ  m ;  '/' k").
Notation "'run' m ; k" := (bind m (λ _, k))
  (at level 20, m at level 100, k at level 200, right associativity,
   format "'run'  m ;  '/' k").

(** [log_path.join('uncollected.log').open('w')]: the file starts empty. *)
Definition open_w : M unit :=
  λ s, (Ok tt, mkStore [] (uncollection_stats s)).

(** [f.write(line)] *)
Definition write (line : string) : M unit :=
  λ s, (Ok tt, mkStore (uncollected_log s ++ [line]) (uncollection_stats s)).

(** [store.uncollection_stats[key] = n] *)
Definition set_stat (key : string) (n : Z) : M unit :=
  λ s, (Ok tt, mkStore (uncollected_log s) (<[key := n]> (uncollection_stats s))).

Definition newline : string := String (Ascii.ascii_of_nat 10) "".

(** [not r] for what [uncollectif] returned. *)
Definition not_ret (r : option bool) : bool :=
  match r with
  | Some b => negb b
  | None => true
  end.

(** [item.get_marker('uncollect') or not uncollectif(item)]; [or] does
    not evaluate its right operand when the left one is truthy. *)
Definition uncollect_cond (item : Item) : result bool :=
  match get_marker item "uncollect" with
  | Some _ => Ok true
  | None => r ←ᵣ uncollectif item; Ok (not_ret r)
  end.

(** The line written for an item that is filtered out. *)
Definition log_line (item : Item) : string :=
  let uncollect := get_marker item "uncollect" in
  let marker :=
    match uncollect with
    | Some m => Some m
    | None => get_marker item "uncollectif"
    end in
  let reason :=
    match marker with
    | Some m => kwargs_reason (marker_mark m)
    | None => VNone
    end in
  name item +:+ " - " +:+ str reason +:+ newline.

(** The [for] loop, with [new_items] as it stands before [items]. *)
Fixpoint for_items (items new_items : list Item) : M (list Item) :=
  match items with
  | [] => ret new_items
  | item :: rest =>
      c ←ₘ lift (uncollect_cond item);
      if c
      then (run write (log_line item); for_items rest new_items)
      else for_items rest (new_items ++ [item])
  end.

(** The hook.  Its [session] and [config] arguments are not used; the
    value returned is the content of [items] after [items[:] = new_items]. *)
Definition pytest_collection_modifyitems (items : list Item) : M (list Item) :=
  let len_collected := Z.of_nat (length items) in
  run open_w;
  new_items ←ₘ for_items items [];
  let items := new_items in
  let len_filtered := Z.of_nat (length items) in
  let filtered_count := len_collected - len_filtered in
  run set_stat "uncollectif" filtered_count;
  ret items.

(** ** The scenarios of the documentation *)

Module Scenarios.

(** [lambda provider_type: provider_type != 'virtualcenter'] *)
Definition not_virtualcenter : PyObj :=
  PyFunction ["provider_type"]
    (λ vs, match vs with
           | [v] => Ok (VBool (negb (bool_decide (v = VStr "virtualcenter"))))
           | _ => Err TypeError
           end).

(** [lambda foo: False] *)
Definition never_foo : PyObj :=
  PyFunction ["foo"] (λ _, Ok (VBool false)).

(** [lambda a, foo: True] *)
Definition always_a_foo : PyObj :=
  PyFunction ["a"; "foo"] (λ _, Ok (VBool true)).

(** A marker applied once, in the shape [get_marker] gives for a
    decorated test function. *)
Definition mark_info (a : list PyObj) (kw : gmap string value) : MarkerObj :=
  MarkInfo (mkMark a kw) [mkMark a kw].

Definition no_plugins : Config := mkConfig ∅.
Definition with_holder : Config :=
  mkConfig {[ "appliance-holder" := mkPlugin (VObj "<IPAppliance>") ]}.

Definition s0 : Store := mkStore ["stale - line" +:+ newline] {[ "other" := 7 ]}.

Definition test_x (provider_type : string) : Item :=
  mkItem "test_x" {[ "uncollectif" := mark_info [not_virtualcenter] ∅ ]}
    no_plugins (Ok {[ "provider_type" := VStr provider_type ]}) ["provider_type"].

Definition test_flaky : Item :=
  mkItem "test_flaky"
    {[ "uncollectif" := mark_info [not_virtualcenter] {[ "reason" := VStr "flaky on 5.2" ]} ]}
    no_plugins (Ok {[ "provider_type" := VStr "vmware" ]}) ["provider_type"].

Definition test_plain : Item :=
  mkItem "test_plain" ∅ no_plugins (Ok ∅) [].

(** Declares [foo]; the bindings hold something else. *)
Definition test_d : Item :=
  mkItem "test_d" {[ "uncollectif" := mark_info [never_foo] ∅ ]}
    no_plugins (Ok {[ "bar" := VInt 1 ]}) ["bar"].

(** Declares [foo]; the bindings are empty. *)
Definition test_e (c : Config) : Item :=
  mkItem "test_e" {[ "uncollectif" := mark_info [never_foo] ∅ ]}
    c (Ok ∅) ["foo"].

(** Declares [a] and [foo], both fixtures of the test; only [a] is bound. *)
Definition test_not_ready : Item :=
  mkItem "test_nr" {[ "uncollectif" := mark_info [always_a_foo] ∅ ]}
    no_plugins (Ok {[ "a" := VInt 1 ]}) ["a"; "foo"].

(** Declares [a] and [foo]; only [a] is a fixture of the test. *)
Definition test_mixed : Item :=
  mkItem "test_mixed" {[ "uncollectif" := mark_info [always_a_foo] ∅ ]}
    no_plugins (Ok {[ "a" := VInt 1 ]}) ["a"].

(** [@pytest.mark.uncollectif(True)], [(False)] and so on. *)
Definition test_lit (v : value) : Item :=
  mkItem "test_lit" {[ "uncollectif" := MarkDecorator (mkMark [PyLit v] ∅) ]}
    no_plugins (Ok ∅) [].

(** Both markers; the conditional one would raise. *)
Definition test_both : Item :=
  mkItem "test_both"
    {[ "uncollect" := MarkDecorator (mkMark [] {[ "reason" := VStr "broken" ]});
       "uncollectif" := mark_info [never_foo] {[ "reason" := VStr "other" ]} ]}
    no_plugins (Ok {[ "bar" := VInt 1 ]}) ["bar"].

End Scenarios.

Import Scenarios.

(** ** Vocabulary of the properties *)

(** The outcome of the loop condition on one item. *)
Definition decided (item : Item) : Prop := ∃ b, uncollect_cond item = Ok b.
Definition dropped (item : Item) : Prop := uncollect_cond item = Ok true.
Definition retained (item : Item) : Prop := uncollect_cond item = Ok false.

#[global] Instance dropped_dec item : Decision (dropped item).
Proof. unfold dropped. apply _. Defined.
#[global] Instance retained_dec item : Decision (retained item).
Proof. unfold retained. apply _. Defined.

(** The reason the documentation gives for an excluded item: that of
    the 'uncollect' marker when the item carries one, otherwise that of
    the 'uncollectif' marker; 'No reason given' when the marker that
    counts has no [reason] keyword. *)
Inductive preferred_reason (item : Item) : string → Prop :=
  | reason_uncollect m v :
      get_marker item "uncollect" = Some m →
      kwargs (marker_mark m) !! "reason" = Some v →
      preferred_reason item (str v)
  | reason_uncollect_default m :
      get_marker item "uncollect" = Some m →
      kwargs (marker_mark m) !! "reason" = None →
      preferred_reason item "No reason given"
  | reason_uncollectif m v :
      get_marker item "uncollect" = None →
      get_marker item "uncollectif" = Some m →
      kwargs (marker_mark m) !! "reason" = Some v →
      preferred_reason item (str v)
  | reason_uncollectif_default m :
      get_marker item "uncollect" = None →
      get_marker item "uncollectif" = Some m →
      kwargs (marker_mark m) !! "reason" = None →
      preferred_reason item "No reason given".

Definition audit_line (item : Item) (line : string) : Prop :=
  ∃ reason,
    preferred_reason item reason
    ∧ line = name item +:+ " - " +:+ reason +:+ newline.

(** What the code takes for "the conditional marker excludes the item":
    the marker's first argument is a truthy object that is not a plain
    function; or the predicate declares parameters and there is no value
    at all to bind; or the predicate, called on the values bound to its
    parameters, returns a truthy value. *)
Inductive conditional_excludes (item : Item) : Prop :=
  | excludes_literal marker f a rest :
      get_marker item "uncollectif" = Some marker →
      get_uncollect_function marker = Ok f →
      getargspec f = Err TypeError →
      args (marker_mark marker) = a :: rest →
      truthy_obj a = true →
      conditional_excludes item
  | excludes_empty_context marker f arg_names bindings :
      get_marker item "uncollectif" = Some marker →
      get_uncollect_function marker = Ok f →
      getargspec f = Ok arg_names →
      arg_names ≠ [] →
      extract_fixtures_values item = Ok bindings →
      global_vars item ∪ bindings = ∅ →
      conditional_excludes item
  | excludes_truthy marker f arg_names bindings vs g rest retval :
      get_marker item "uncollectif" = Some marker →
      get_uncollect_function marker = Ok f →
      getargspec f = Ok arg_names →
      extract_fixtures_values item = Ok bindings →
      Forall2 (λ arg v, (global_vars item ∪ bindings) !! arg = Some v) arg_names vs →
      args (marker_mark marker) = g :: rest →
      call_obj g vs = Ok retval →
      truthy retval = true →
      conditional_excludes item.

(** The documentation's reading of "the conditional predicate evaluates
    truthy", taken generously: the marker's first argument returns a
    truthy value on some arguments, or is itself a truthy object that is
    not a plain function. *)
Definition predicate_evaluates_truthy (item : Item) : Prop :=
  ∃ marker f rest,
    get_marker item "uncollectif" = Some marker
    ∧ args (marker_mark marker) = f :: rest
    ∧ ((∃ vs retval, call_obj f vs = Ok retval ∧ truthy retval = true)
       ∨ (getargspec f = Err TypeError ∧ truthy_obj f = true)).

(** "The message names [needle]": [needle] occurs in it. *)
Fixpoint is_substring (needle hay : string) : bool :=
  String.prefix needle hay
  || match hay with
     | "" => false
     | String _ rest => is_substring needle rest
     end.

(** ** Further vocabulary and test items *)

(** A marker from which [get_uncollect_function] has nothing to take: a
    decorator without positional arguments, an iterable that yields
    nothing, or one whose first object has no positional argument. *)
Definition lacks_predicate (marker : MarkerObj) : Prop :=
  match marker with
  | MarkDecorator m => args m = []
  | MarkInfo _ marks =>
      match marks with
      | [] => True
      | first :: _ => args first = []
      end
  end.

(** An item that carries neither marker. *)
Definition unmarked (item : Item) : Prop :=
  get_marker item "uncollect" = None ∧ get_marker item "uncollectif" = None.

Module Cases.

(** [@pytest.mark.uncollectif(reason='later')]: no predicate at all. *)
Definition test_no_predicate : Item :=
  mkItem "test_np"
    {[ "uncollectif" := mark_info [] {[ "reason" := VStr "later" ]} ]}
    no_plugins (Ok {[ "provider_type" := VStr "vmware" ]}) ["provider_type"].

(** [lambda provider_type: {}[provider_type]]: the predicate itself
    raises a KeyError. *)
Definition raises_key_error : PyObj :=
  PyFunction ["provider_type"]
    (λ vs, match vs with
           | [VStr k] => Err (KeyError k)
           | _ => Err TypeError
           end).

Definition test_raises : Item :=
  mkItem "test_raises" {[ "uncollectif" := mark_info [raises_key_error] ∅ ]}
    no_plugins (Ok {[ "provider_type" := VStr "vmware" ]}) ["provider_type"].

(** [lambda: True], as in [lambda: version.current_version() < '5.3']. *)
Definition always : PyObj :=
  PyFunction [] (λ vs, match vs with
                       | [] => Ok (VBool true)
                       | _ => Err TypeError
                       end).

(** A parameterless predicate on a test without any fixture value. *)
Definition test_always : Item :=
  mkItem "test_always" {[ "uncollectif" := mark_info [always] ∅ ]}
    no_plugins (Ok ∅) [].

(** [lambda appliance: appliance == 'from the fixture'] *)
Definition is_fixture_appliance : PyObj :=
  PyFunction ["appliance"]
    (λ vs, match vs with
           | [v] => Ok (VBool (bool_decide (v = VStr "from the fixture")))
           | _ => Err TypeError
           end).

(** A test with a fixture called [appliance], run with the holder. *)
Definition test_appliance : Item :=
  mkItem "test_appliance" {[ "uncollectif" := mark_info [is_fixture_appliance] ∅ ]}
    with_holder (Ok {[ "appliance" := VStr "from the fixture" ]}) ["appliance"].

End Cases.

Import Cases.

(** ** What one pass does *)

Section Pass.

Implicit Types (item : Item) (items acc : list Item) (s : Store).

Lemma decided_cases item : decided item → dropped item ∨ retained item.
Proof. intros [[] Hb]; [left | right]; exact Hb. Qed.

Lemma retained_not_dropped item : retained item → ¬ dropped item.
Proof. unfold retained, dropped. congruence. Qed.

Lemma retained_not_dropped_conv item : dropped item → ¬ retained item.
Proof. unfold retained, dropped. congruence. Qed.

Lemma for_items_decided items :
  ∀ acc s new_items s',
    for_items items acc s = (Ok new_items, s') → Forall decided items.
Proof.
  induction items as [|item rest IH]; intros acc s new_items s' H.
  - constructor.
  - cbn in H. unfold bind, lift in H.
    destruct (uncollect_cond item) as [c|e] eqn:Hc; [|discriminate].
    constructor; [by exists c|].
    destruct c; cbn in H; eauto.
Qed.

Lemma for_items_total items :
  Forall decided items →
  ∀ acc s,
    for_items items acc s =
      (Ok (acc ++ filter retained items),
       mkStore (uncollected_log s ++ (log_line <$> filter dropped items))
               (uncollection_stats s)).
Proof.
  induction 1 as [|item rest Hd _ IH]; intros acc s.
  - cbn. unfold ret. rewrite !app_nil_r. by destruct s.
  - destruct (decided_cases _ Hd) as [Hc|Hc].
    + rewrite (filter_cons_True dropped) by done.
      rewrite (filter_cons_False retained) by (unfold retained, dropped in *; congruence).
      cbn [for_items]. unfold bind at 1, lift. rewrite Hc.
      unfold bind, write. rewrite IH. cbn. by rewrite <- app_assoc.
    + rewrite (filter_cons_True retained) by done.
      rewrite (filter_cons_False dropped) by (unfold retained, dropped in *; congruence).
      cbn [for_items]. unfold bind at 1, lift. rewrite Hc.
      rewrite IH. by rewrite <- app_assoc.
Qed.

Lemma length_partition items :
  Forall decided items →
  length items = (length (filter retained items) + length (filter dropped items))%nat.
Proof.
  induction 1 as [|item rest Hd _ IH]; [done|].
  destruct (decided_cases _ Hd) as [Hc|Hc].
  - rewrite (filter_cons_True dropped) by done.
    rewrite (filter_cons_False retained) by (unfold retained, dropped in *; congruence).
    cbn. lia.
  - rewrite (filter_cons_True retained) by done.
    rewrite (filter_cons_False dropped) by (unfold retained, dropped in *; congruence).
    cbn. lia.
Qed.

(** A pass over items whose conditions all evaluate returns. *)
Lemma modifyitems_total items s :
  Forall decided items →
  pytest_collection_modifyitems items s =
    (Ok (filter retained items),
     mkStore (log_line <$> filter dropped items)
             (<["uncollectif" := Z.of_nat (length (filter dropped items))]>
                (uncollection_stats s))).
Proof.
  intros Hd. unfold pytest_collection_modifyitems, bind, open_w.
  rewrite (for_items_total _ Hd). cbn. unfold set_stat, ret. cbn.
  do 3 f_equal. rewrite (length_partition _ Hd). lia.
Qed.

(** A pass that returns has evaluated every condition. *)
Lemma modifyitems_decided items s new_items s' :
  pytest_collection_modifyitems items s = (Ok new_items, s') →
  Forall decided items.
Proof.
  unfold pytest_collection_modifyitems, bind, open_w. intros H.
  destruct (for_items items [] _) as [[r|e] s1] eqn:Hf; [|discriminate].
  by eapply for_items_decided.
Qed.

(** So a pass returns exactly when every condition evaluates. *)
Lemma modifyitems_returns_iff items s :
  (∃ new_items s', pytest_collection_modifyitems items s = (Ok new_items, s'))
  ↔ Forall decided items.
Proof.
  split.
  - intros (new_items & s' & H). by eapply modifyitems_decided.
  - intros Hd. do 2 eexists. by apply modifyitems_total.
Qed.

Lemma modifyitems_inv items s new_items s' :
  pytest_collection_modifyitems items s = (Ok new_items, s') →
  Forall decided items
  ∧ new_items = filter retained items
  ∧ uncollected_log s' = log_line <$> filter dropped items
  ∧ uncollection_stats s' =
      <["uncollectif" := Z.of_nat (length (filter dropped items))]>
        (uncollection_stats s).
Proof.
  intros H. pose proof (modifyitems_decided _ _ _ _ H) as Hd.
  rewrite (modifyitems_total _ _ Hd) in H. by simplify_eq.
Qed.

End Pass.

(** ** Order, idempotence and the exclusion count *)

Lemma retained_decided (item : Item) : retained item → decided item.
Proof. intros H. by exists false. Qed.

Lemma filter_retained_decided (items : list Item) :
  Forall decided (filter retained items).
Proof.
  apply Forall_forall. intros item [Hr _]%list_elem_of_filter.
  by apply retained_decided.
Qed.

Lemma filter_retained_idem (items : list Item) :
  filter retained (filter retained items) = filter retained items.
Proof.
  induction items as [|item rest IH]; [done|].
  destruct (decide (retained item)) as [Hr|Hr].
  - rewrite (filter_cons_True retained item rest Hr).
    rewrite (filter_cons_True retained) by done. by rewrite IH.
  - by rewrite (filter_cons_False retained item rest Hr).
Qed.

Lemma filter_dropped_retained (items : list Item) :
  filter dropped (filter retained items) = [].
Proof.
  induction items as [|item rest IH]; [done|].
  destruct (decide (retained item)) as [Hr|Hr].
  - rewrite (filter_cons_True retained item rest Hr).
    rewrite (filter_cons_False dropped); [done|].
    by apply retained_not_dropped.
  - by rewrite (filter_cons_False retained item rest Hr).
Qed.

(** C5: when a pass returns, the items it keeps are the retained items
    of the input, in the order they have in the input: the kept list is
    a subsequence of the input list. *)
Theorem kept_items_keep_input_order (items : list Item) (s : Store)
    (new_items : list Item) (s' : Store) :
  pytest_collection_modifyitems items s = (Ok new_items, s') →
  new_items = filter retained items ∧ new_items `sublist_of` items.
Proof.
  intros (_ & -> & _)%modifyitems_inv. split; [done|].
  apply sublist_filter.
Qed.

Lemma kept_items_keep_input_order_witness :
  let items := [test_x "virtualcenter"; test_x "vmware"; test_plain; test_flaky] in
  [test_x "virtualcenter"; test_plain] = filter retained items
  ∧ [test_x "virtualcenter"; test_plain] `sublist_of` items.
Proof.
  intros items.
  apply (kept_items_keep_input_order items s0 _
           (snd (pytest_collection_modifyitems items s0))).
  vm_compute. reflexivity.
Defined.

(** C6: a pass over the list a pass has returned keeps every item of it
    and writes no record: the filter is idempotent. *)
Theorem filter_idempotent (items : list Item) (s : Store)
    (new_items : list Item) (s' : Store) :
  pytest_collection_modifyitems items s = (Ok new_items, s') →
  ∀ s2,
    pytest_collection_modifyitems new_items s2 =
      (Ok new_items, mkStore [] (<["uncollectif" := 0]> (uncollection_stats s2))).
Proof.
  intros (_ & -> & _)%modifyitems_inv s2.
  rewrite (modifyitems_total _ _ (filter_retained_decided items)).
  by rewrite filter_retained_idem, filter_dropped_retained.
Qed.

Lemma filter_idempotent_witness :
  pytest_collection_modifyitems [test_x "virtualcenter"; test_plain] s0 =
    (Ok [test_x "virtualcenter"; test_plain],
     mkStore [] (<["uncollectif" := 0]> (uncollection_stats s0))).
Proof.
  apply (filter_idempotent
           [test_x "virtualcenter"; test_x "vmware"; test_plain; test_flaky] s0 _
           (snd (pytest_collection_modifyitems
                   [test_x "virtualcenter"; test_x "vmware"; test_plain; test_flaky] s0))).
  vm_compute. reflexivity.
Defined.

(** C7: when a pass returns, the count stored under 'uncollectif' is the
    number of records the pass wrote to uncollected.log, which is the
    number of items collected minus the number kept; the counts stored
    under other keys are left alone. *)
Theorem exclusion_count_matches_log (items : list Item) (s : Store)
    (new_items : list Item) (s' : Store) :
  pytest_collection_modifyitems items s = (Ok new_items, s') →
  uncollection_stats s' !! "uncollectif"
    = Some (Z.of_nat (length (uncollected_log s')))
  ∧ Z.of_nat (length (uncollected_log s'))
    = Z.of_nat (length items) - Z.of_nat (length new_items)
  ∧ ∀ key, key ≠ "uncollectif" →
      uncollection_stats s' !! key = uncollection_stats s !! key.
Proof.
  intros (Hd & -> & Hlog & Hstats)%modifyitems_inv.
  rewrite Hlog, Hstats, length_fmap. split; [|split].
  - by rewrite lookup_insert_eq.
  - rewrite (length_partition _ Hd). lia.
  - intros key Hkey. by rewrite lookup_insert_ne.
Qed.

Lemma exclusion_count_matches_log_witness :
  let items := [test_x "virtualcenter"; test_x "vmware"; test_plain; test_flaky] in
  let s' := snd (pytest_collection_modifyitems items s0) in
  uncollection_stats s' !! "uncollectif"
    = Some (Z.of_nat (length (uncollected_log s')))
  ∧ Z.of_nat (length (uncollected_log s'))
    = Z.of_nat (length items) - Z.of_nat (length [test_x "virtualcenter"; test_plain])
  ∧ ∀ key, key ≠ "uncollectif" →
      uncollection_stats s' !! key = uncollection_stats s0 !! key.
Proof.
  intros items s'.
  apply (exclusion_count_matches_log items s0 [test_x "virtualcenter"; test_plain] s').
  vm_compute. reflexivity.
Defined.

(** ** The audit records *)

Lemma dropped_has_marker (item : Item) :
  dropped item →
  is_Some (get_marker item "uncollect") ∨ is_Some (get_marker item "uncollectif").
Proof.
  unfold dropped, uncollect_cond, uncollectif.
  destruct (get_marker item "uncollect"); [by left; eexists|].
  destruct (get_marker item "uncollectif"); [by right; eexists|].
  cbn. discriminate.
Qed.

Lemma kwargs_reason_cases (m : Mark) :
  (∃ v, kwargs m !! "reason" = Some v ∧ kwargs_reason m = v)
  ∨ (kwargs m !! "reason" = None ∧ kwargs_reason m = VStr "No reason given").
Proof.
  unfold kwargs_reason. destruct (kwargs m !! "reason"); cbn; eauto.
Qed.

Lemma dropped_audit_line (item : Item) :
  dropped item → audit_line item (log_line item).
Proof.
  intros Hd. unfold audit_line, log_line.
  destruct (get_marker item "uncollect") as [m|] eqn:Hu.
  - destruct (kwargs_reason_cases (marker_mark m)) as [(v & Hv & ->)|[Hv ->]];
      eexists; (split; [|reflexivity]).
    + by eapply reason_uncollect.
    + by eapply reason_uncollect_default.
  - destruct (dropped_has_marker _ Hd) as [[m Hm]|[m Hm]]; [congruence|].
    rewrite Hm.
    destruct (kwargs_reason_cases (marker_mark m)) as [(v & Hv & ->)|[Hv ->]];
      eexists; (split; [|reflexivity]).
    + by eapply reason_uncollectif.
    + by eapply reason_uncollectif_default.
Qed.

(** C8: when a pass returns, uncollected.log holds one record per
    excluded item, in the order of the items, and the record of an item
    reads "<name> - <reason>" and a newline, where the reason is the
    'uncollect' marker's when the item carries that marker, otherwise
    the 'uncollectif' marker's, and 'No reason given' when that marker
    has no reason keyword. *)
Theorem one_audit_line_per_excluded_item (items : list Item) (s : Store)
    (new_items : list Item) (s' : Store) :
  pytest_collection_modifyitems items s = (Ok new_items, s') →
  Forall2 audit_line (filter dropped items) (uncollected_log s')
  ∧ (length (uncollected_log s') + length new_items = length items)%nat.
Proof.
  intros (Hd & -> & -> & _)%modifyitems_inv. split.
  - apply Forall2_fmap_r, Forall_Forall2_diag, Forall_forall.
    intros item [Hdrop _]%list_elem_of_filter. by apply dropped_audit_line.
  - rewrite length_fmap, (length_partition _ Hd). lia.
Qed.

Lemma one_audit_line_per_excluded_item_witness :
  let items := [test_x "virtualcenter"; test_x "vmware"; test_both; test_flaky] in
  let s' := snd (pytest_collection_modifyitems items s0) in
  Forall2 audit_line (filter dropped items) (uncollected_log s')
  ∧ (length (uncollected_log s') + length [test_x "virtualcenter"] = length items)%nat.
Proof.
  intros items s'.
  apply (one_audit_line_per_excluded_item items s0 [test_x "virtualcenter"] s').
  vm_compute. reflexivity.
Defined.

(** The records of the documentation's scenarios B and C, and of an item
    that carries both markers. *)
Example audit_lines_of_scenarios :
  uncollected_log
    (snd (pytest_collection_modifyitems [test_x "vmware"; test_flaky; test_both] s0))
  = ["test_x - No reason given" +:+ newline;
     "test_flaky - flaky on 5.2" +:+ newline;
     "test_both - broken" +:+ newline].
Proof. vm_compute. reflexivity. Qed.

(** ** The two shapes of a marker *)

(** C9: [get_uncollect_function] takes a mark decorator and an iterable
    of marker-like objects alike, and gives the first positional
    argument of the decorator, or of the first object of the iterable. *)
Theorem get_uncollect_function_both_shapes (f : PyObj) (rest : list PyObj)
    (kw : gmap string value) (m : Mark) (marks : list Mark) :
  get_uncollect_function (MarkDecorator (mkMark (f :: rest) kw)) = Ok f
  ∧ get_uncollect_function (MarkInfo m (mkMark (f :: rest) kw :: marks)) = Ok f.
Proof. split; reflexivity. Qed.

(** ** The 'uncollect' marker comes first *)

(** C10: an item that carries the 'uncollect' marker is excluded, with
    that marker's reason, whatever its 'uncollectif' marker, fixtures or
    configuration are: the loop writes its record and goes on, and the
    outcome mentions none of them, so the pass cannot fail on the
    predicate. *)
Theorem uncollect_marker_short_circuits (item : Item) (m : MarkerObj) (s : Store) :
  get_marker item "uncollect" = Some m →
  let line := name item +:+ " - " +:+ str (kwargs_reason (marker_mark m)) +:+ newline in
  uncollect_cond item = Ok true
  ∧ (∀ rest new_items,
       for_items (item :: rest) new_items s =
         for_items rest new_items
           (mkStore (uncollected_log s ++ [line]) (uncollection_stats s)))
  ∧ pytest_collection_modifyitems [item] s =
      (Ok [], mkStore [line] (<["uncollectif" := 1]> (uncollection_stats s))).
Proof.
  intros Hm line.
  assert (Hc : uncollect_cond item = Ok true) by (unfold uncollect_cond; by rewrite Hm).
  assert (Hline : log_line item = line) by (unfold log_line; by rewrite Hm).
  split; [done|]. split.
  - intros rest new_items. cbn [for_items]. unfold bind at 1, lift. rewrite Hc.
    unfold bind, write. by rewrite Hline.
  - rewrite modifyitems_total by (repeat constructor; by exists true).
    rewrite (filter_cons_True dropped) by done.
    rewrite (filter_cons_False retained) by (unfold retained; congruence).
    cbn. by rewrite Hline.
Qed.

Lemma uncollect_marker_short_circuits_witness :
  let m := MarkDecorator (mkMark [] {[ "reason" := VStr "broken" ]}) in
  let line := name test_both +:+ " - " +:+ str (kwargs_reason (marker_mark m)) +:+ newline in
  (∃ msg, uncollectif test_both = Err (Exception msg))
  ∧ uncollect_cond test_both = Ok true
  ∧ (∀ rest new_items,
       for_items (test_both :: rest) new_items s0 =
         for_items rest new_items
           (mkStore (uncollected_log s0 ++ [line]) (uncollection_stats s0)))
  ∧ pytest_collection_modifyitems [test_both] s0 =
      (Ok [], mkStore [line] (<["uncollectif" := 1]> (uncollection_stats s0))).
Proof.
  intros m line. split; [eexists; vm_compute; reflexivity|].
  apply (uncollect_marker_short_circuits test_both m s0).
  vm_compute. reflexivity.
Defined.

(** ** A predicate that is not a plain function *)

(** C4, as the documentation has it, fails: with the literal [True] as
    first argument, which [getargspec] refuses, the item is excluded
    although the argument is not falsy; with [False] it is kept. *)
Lemma literal_true_is_excluded :
  let marker := MarkDecorator (mkMark [PyLit (VBool true)] ∅) in
  get_marker (test_lit (VBool true)) "uncollectif" = Some marker
  ∧ (f ←ᵣ get_uncollect_function marker; getargspec f) = Err TypeError
  ∧ truthy_obj (PyLit (VBool true)) = true
  ∧ fst (pytest_collection_modifyitems [test_lit (VBool true)] s0) = Ok []
  ∧ truthy_obj (PyLit (VBool false)) = false
  ∧ fst (pytest_collection_modifyitems [test_lit (VBool false)] s0)
    = Ok [test_lit (VBool false)].
Proof. repeat split; vm_compute; reflexivity. Qed.

(** C4, amended: when the predicate of the 'uncollectif' marker is not
    a plain function, [uncollectif] returns the negation of the truth
    value of the marker's first positional argument, which is its answer
    to "keep the item?"; so an item without the 'uncollect' marker is
    excluded if and only if that argument is truthy. *)
Theorem literal_predicate_excludes_iff_truthy (item : Item) (marker : MarkerObj)
    (f a : PyObj) (rest : list PyObj) (s : Store) :
  get_marker item "uncollectif" = Some marker →
  get_uncollect_function marker = Ok f →
  getargspec f = Err TypeError →
  args (marker_mark marker) = a :: rest →
  uncollectif item = Ok (Some (negb (truthy_obj a)))
  ∧ (get_marker item "uncollect" = None →
     (dropped item ↔ truthy_obj a = true)
     ∧ fst (pytest_collection_modifyitems [item] s)
       = Ok (if truthy_obj a then [] else [item])).
Proof.
  intros Hm Hf Hspec Ha.
  assert (Hu : uncollectif item = Ok (Some (negb (truthy_obj a)))).
  { unfold uncollectif. rewrite Hm, Hf. cbn. rewrite Hspec, Ha. reflexivity. }
  split; [done|]. intros Hnone.
  assert (Hc : uncollect_cond item = Ok (truthy_obj a)).
  { unfold uncollect_cond. rewrite Hnone, Hu. cbn. by rewrite negb_involutive. }
  split.
  - unfold dropped. rewrite Hc. split; congruence.
  - rewrite modifyitems_total by (repeat constructor; by eexists).
    destruct (truthy_obj a) eqn:Ht.
    + by rewrite (filter_cons_False retained) by (unfold retained; congruence).
    + by rewrite (filter_cons_True retained) by done.
Qed.

Lemma literal_predicate_excludes_iff_truthy_witness :
  let item := test_lit (VInt 0) in
  let a := PyLit (VInt 0) in
  uncollectif item = Ok (Some (negb (truthy_obj a)))
  ∧ (get_marker item "uncollect" = None →
     (dropped item ↔ truthy_obj a = true)
     ∧ fst (pytest_collection_modifyitems [item] s0)
       = Ok (if truthy_obj a then [] else [item])).
Proof.
  intros item a.
  apply (literal_predicate_excludes_iff_truthy item
           (MarkDecorator (mkMark [a] ∅)) a a [] s0);
    vm_compute; reflexivity.
Defined.

(** ** The empty context *)

(** C3, as the documentation has it, fails: with the appliance holder
    registered, the combined values hold 'appliance', so empty fixture
    bindings do not make the context empty and the lookup of [foo]
    raises. *)
Lemma empty_bindings_with_holder_raise :
  let item := test_e with_holder in
  get_marker item "uncollectif" = Some (mark_info [never_foo] ∅)
  ∧ (f ←ᵣ get_uncollect_function (mark_info [never_foo] ∅); getargspec f) = Ok ["foo"]
  ∧ extract_fixtures_values item = Ok ∅
  ∧ uncollectif item
    = Err (Exception "Failed to uncollect test_e, best guess a fixture wasn't ready")
  ∧ fst (pytest_collection_modifyitems [item] s0)
    = Err (Exception "Failed to uncollect test_e, best guess a fixture wasn't ready").
Proof. repeat split; vm_compute; reflexivity. Qed.

(** C3, amended: when the predicate declares at least one parameter,
    the fixture bindings are empty and no 'appliance-holder' plugin is
    registered, [uncollectif] raises nothing and returns [None]; the
    pass excludes the item and writes its ordinary record, with the
    marker's reason or 'No reason given'. *)
Theorem empty_context_is_excluded (item : Item) (marker : MarkerObj) (f : PyObj)
    (arg_names : list string) (s : Store) :
  get_marker item "uncollectif" = Some marker →
  get_uncollect_function marker = Ok f →
  getargspec f = Ok arg_names →
  arg_names ≠ [] →
  extract_fixtures_values item = Ok ∅ →
  getplugin (config item) "appliance-holder" = None →
  uncollectif item = Ok None
  ∧ pytest_collection_modifyitems [item] s =
      (Ok [], mkStore [log_line item] (<["uncollectif" := 1]> (uncollection_stats s)))
  ∧ audit_line item (log_line item).
Proof.
  intros Hm Hf Hspec Hne Hfix Hplug.
  assert (Hu : uncollectif item = Ok None).
  { unfold uncollectif. rewrite Hm, Hf. cbn. rewrite Hspec.
    unfold bind_args, global_vars. rewrite Hfix, Hplug. cbn.
    rewrite (left_id_L ∅ (∪)).
    by rewrite (bool_decide_eq_true_2 _ Hne), bool_decide_eq_true_2. }
  assert (Hd : dropped item).
  { unfold dropped, uncollect_cond. destruct (get_marker item "uncollect"); [done|].
    by rewrite Hu. }
  split; [done|]. split; [|by apply dropped_audit_line].
  rewrite modifyitems_total by (repeat constructor; by exists true).
  rewrite (filter_cons_True dropped) by done.
  by rewrite (filter_cons_False retained) by (by apply retained_not_dropped_conv).
Qed.

Lemma empty_context_is_excluded_witness :
  let item := test_e no_plugins in
  uncollectif item = Ok None
  ∧ pytest_collection_modifyitems [item] s0 =
      (Ok [], mkStore [log_line item] (<["uncollectif" := 1]> (uncollection_stats s0)))
  ∧ audit_line item (log_line item).
Proof.
  intros item.
  apply (empty_context_is_excluded item (mark_info [never_foo] ∅) never_foo ["foo"] s0);
    try (vm_compute; reflexivity).
  discriminate.
Defined.

(** ** When an item is excluded *)

Lemma lookup_args_Forall2 (values : gmap string value) (arg_names : list string)
    (vs : list value) :
  lookup_args values arg_names = Ok vs
  ↔ Forall2 (λ arg v, values !! arg = Some v) arg_names vs.
Proof.
  revert vs. induction arg_names as [|arg rest IH]; intros vs; cbn.
  - split; [intros [= <-]; constructor | by inversion 1].
  - unfold getitem. split.
    + destruct (values !! arg) as [v|] eqn:Hv; cbn; [|discriminate].
      destruct (lookup_args values rest) as [vs'|] eqn:Hl; cbn; [|discriminate].
      intros [= <-]. constructor; [done|]. by apply IH.
    + inversion 1 as [|? v ? vs' Hv Hrest]; subst. rewrite Hv. cbn.
      apply IH in Hrest. by rewrite Hrest.
Qed.

Lemma getargspec_err (f : PyObj) (e : exn) : getargspec f = Err e → e = TypeError.
Proof. destruct f; cbn; congruence. Qed.

Lemma uncollectif_falsy_excludes (item : Item) (r : option bool) :
  uncollectif item = Ok r → not_ret r = true → conditional_excludes item.
Proof.
  unfold uncollectif.
  destruct (get_marker item "uncollectif") as [marker|] eqn:Hm;
    [|intros [= <-]; discriminate].
  destruct (get_uncollect_function marker) as [f|e] eqn:Hf; cbn.
  2: { destruct e; try discriminate.
       (* [get_uncollect_function] raises IndexError only *)
       destruct marker as [mk|mk marks]; cbn in Hf.
       - destruct (args mk); discriminate.
       - destruct marks as [|first ?]; cbn in Hf; [discriminate|].
         destruct (args first); discriminate. }
  destruct (getargspec f) as [arg_names|e] eqn:Hspec.
  2: { pose proof (getargspec_err _ _ Hspec) as ->.
       destruct (args (marker_mark marker)) as [|a rest] eqn:Ha; cbn; [discriminate|].
       intros [= <-]. cbn. rewrite negb_involutive. intros Ht.
       by eapply excludes_literal. }
  unfold bind_args.
  destruct (extract_fixtures_values item) as [bindings|e] eqn:Hfix; cbn.
  2: { destruct e; try discriminate.
       destruct (bool_decide (missing_argnames _ _ ≠ [])); discriminate. }
  destruct (bool_decide (arg_names ≠ []) && bool_decide (global_vars item ∪ bindings = ∅))
    eqn:Hempty.
  { intros _ _. apply andb_true_iff in Hempty as [Hne%bool_decide_eq_true Hvals%bool_decide_eq_true].
    by eapply excludes_empty_context. }
  destruct (lookup_args (global_vars item ∪ bindings) arg_names) as [vs|e] eqn:Hl; cbn.
  2: { destruct e; try discriminate.
       destruct (bool_decide (missing_argnames _ _ ≠ [])); discriminate. }
  destruct (args (marker_mark marker)) as [|g rest] eqn:Ha; cbn; [discriminate|].
  destruct (call_obj g vs) as [retval|e] eqn:Hcall; cbn; [|discriminate].
  intros [= <-]. cbn. rewrite negb_involutive. intros Ht.
  eapply excludes_truthy; eauto. by apply lookup_args_Forall2.
Qed.

Lemma excludes_uncollectif_falsy (item : Item) :
  conditional_excludes item → ∃ r, uncollectif item = Ok r ∧ not_ret r = true.
Proof.
  intros [marker f a rest Hm Hf Hspec Ha Ht
         |marker f arg_names bindings Hm Hf Hspec Hne Hfix Hvals
         |marker f arg_names bindings vs g rest retval Hm Hf Hspec Hfix Hvs Ha Hcall Ht];
    unfold uncollectif; rewrite Hm, Hf; cbn; rewrite Hspec.
  - rewrite Ha. cbn. rewrite Ht. by eexists.
  - unfold bind_args. rewrite Hfix. cbn. rewrite Hvals.
    rewrite (bool_decide_eq_true_2 _ Hne), bool_decide_eq_true_2 by done.
    by eexists.
  - unfold bind_args. rewrite Hfix. cbn.
    assert (bool_decide (arg_names ≠ [])
            && bool_decide (global_vars item ∪ bindings = ∅) = false) as ->.
    { destruct Hvs as [|arg v ? ? Hv _]; [done|].
      apply andb_false_iff. right. apply bool_decide_eq_false_2.
      intros Hempty. by rewrite Hempty, lookup_empty in Hv. }
    apply lookup_args_Forall2 in Hvs. rewrite Hvs. cbn.
    rewrite Ha. cbn. rewrite Hcall. cbn. rewrite Ht. by eexists.
Qed.

Lemma dropped_iff (item : Item) :
  dropped item
  ↔ is_Some (get_marker item "uncollect") ∨ conditional_excludes item.
Proof.
  unfold dropped, uncollect_cond.
  destruct (get_marker item "uncollect") as [m|] eqn:Hu.
  - split; [by left; eexists | done].
  - split.
    + destruct (uncollectif item) as [r|e] eqn:Hr; cbn; [|discriminate].
      intros [= Hnot]. right. by eapply uncollectif_falsy_excludes.
    + intros [[? [=]]|(r & -> & Hnot)%excludes_uncollectif_falsy].
      cbn. by rewrite Hnot.
Qed.

(** C1, as the documentation has it, fails in its "only if" half: an
    item without the 'uncollect' marker whose predicate [lambda foo:
    False] is never truthy is excluded all the same when there is no
    value at all to bind. *)
Lemma empty_context_excluded_without_truthy_predicate :
  let item := test_e no_plugins in
  fst (pytest_collection_modifyitems [item] s0) = Ok []
  ∧ get_marker item "uncollect" = None
  ∧ ¬ predicate_evaluates_truthy item.
Proof.
  cbn zeta. split; [vm_compute; reflexivity|]. split; [vm_compute; reflexivity|].
  intros (marker & f & rest & Hm & Ha & H).
  assert (marker = mark_info [never_foo] ∅) as ->.
  { vm_compute in Hm. injection Hm as <-. vm_compute. reflexivity. }
  cbn in Ha. injection Ha as <- <-.
  destruct H as [(vs & retval & Hcall & Ht)|[Hspec _]].
  - cbn in Hcall. injection Hcall as <-. discriminate.
  - discriminate.
Qed.

(** C1, amended: when a pass returns, an item of the input is excluded
    if and only if it carries the 'uncollect' marker, or it carries the
    'uncollectif' marker and either the marker's first argument is a
    truthy object that is not a plain function, or the predicate
    declares parameters while there is no value at all to bind, or the
    predicate called on its bound values returns a truthy value.  An
    item with neither marker is kept. *)
Theorem excluded_iff_marker_or_condition (items : list Item) (s : Store)
    (new_items : list Item) (s' : Store) :
  pytest_collection_modifyitems items s = (Ok new_items, s') →
  ∀ item, item ∈ items →
    (item ∉ new_items
     ↔ is_Some (get_marker item "uncollect") ∨ conditional_excludes item)
    ∧ (get_marker item "uncollect" = None →
       get_marker item "uncollectif" = None →
       item ∈ new_items).
Proof.
  intros (Hd & -> & _)%modifyitems_inv item Hin.
  pose proof (proj1 (Forall_forall _ _) Hd item Hin) as Hitem.
  assert (Hkept : item ∈ filter retained items ↔ ¬ dropped item).
  { rewrite list_elem_of_filter. split.
    - intros [Hr _]. by apply retained_not_dropped.
    - intros Hnd. split; [|done]. by destruct (decided_cases _ Hitem). }
  split.
  - rewrite <- dropped_iff, Hkept. split; [|tauto].
    intros Hnn. by destruct (decide (dropped item)).
  - intros Hu Hif. apply Hkept. intros [[? H]|[? H]]%dropped_has_marker; congruence.
Qed.

Lemma excluded_iff_marker_or_condition_witness :
  let item := test_x "vmware" in
  (item ∉ [test_x "virtualcenter"; test_plain]
   ↔ is_Some (get_marker item "uncollect") ∨ conditional_excludes item)
  ∧ (get_marker item "uncollect" = None →
     get_marker item "uncollectif" = None →
     item ∈ [test_x "virtualcenter"; test_plain]).
Proof.
  intros item.
  apply (excluded_iff_marker_or_condition
           [test_x "virtualcenter"; item; test_plain; test_flaky] s0 _
           (snd (pytest_collection_modifyitems
                   [test_x "virtualcenter"; item; test_plain; test_flaky] s0))).
  - vm_compute. reflexivity.
  - apply list_elem_of_further, list_elem_of_here.
Defined.

(** ** The error for a parameter that cannot be bound *)

Section Substring.

Implicit Types (a b x h : string).

Lemma string_app_assoc a b c : (a +:+ b) +:+ c = a +:+ b +:+ c.
Proof.
  induction a as [|ch a IH]; [done|].
  change (String ch ((a +:+ b) +:+ c) = String ch (a +:+ b +:+ c)).
  by rewrite IH.
Qed.

Lemma string_app_nil_r a : a +:+ "" = a.
Proof.
  induction a as [|ch a IH]; [done|].
  change (String ch (a +:+ "") = String ch a). by rewrite IH.
Qed.

Lemma prefix_app x b : String.prefix x (x +:+ b) = true.
Proof.
  induction x as [|ch x IH]; [by destruct b|].
  change (String.prefix (String ch x) (String ch (x +:+ b)) = true).
  simpl. by destruct (Ascii.ascii_dec ch ch).
Qed.

Lemma is_substring_unfold x h :
  is_substring x h
  = String.prefix x h
    || match h with
       | "" => false
       | String _ rest => is_substring x rest
       end.
Proof. by destruct h. Qed.

Lemma is_substring_here x b : is_substring x (x +:+ b) = true.
Proof.
  rewrite is_substring_unfold. apply orb_true_intro. left. apply prefix_app.
Qed.

Lemma is_substring_app a x b : is_substring x (a +:+ x +:+ b) = true.
Proof.
  induction a as [|ch a IH]; [exact (is_substring_here x b)|].
  change (is_substring x (String ch (a +:+ x +:+ b)) = true).
  rewrite is_substring_unfold, IH. apply orb_true_r.
Qed.

Lemma join_comma_elem x (l : list string) :
  x ∈ l → ∃ a b, join_comma l = a +:+ x +:+ b.
Proof.
  induction l as [|y l IH]; [by intros ?%not_elem_of_nil|].
  intros [->|Hin]%elem_of_cons.
  - destruct l as [|z l]; [exists "", ""; exact (eq_sym (string_app_nil_r y))|].
    exists "", (", " +:+ join_comma (z :: l)). reflexivity.
  - destruct (IH Hin) as (a & b & Hab).
    destruct l as [|z l]; [by apply not_elem_of_nil in Hin|].
    exists (y +:+ ", " +:+ a), b.
    change (join_comma (y :: z :: l)) with (y +:+ ", " +:+ join_comma (z :: l)).
    by rewrite Hab, !string_app_assoc.
Qed.

End Substring.

Lemma lookup_args_missing (values : gmap string value) (arg_names : list string)
    (p : string) :
  p ∈ arg_names → values !! p = None →
  ∃ key, lookup_args values arg_names = Err (KeyError key).
Proof.
  induction arg_names as [|arg rest IH]; [by intros ?%not_elem_of_nil|].
  intros Hin Hp. cbn. unfold getitem.
  destruct (values !! arg) as [v|] eqn:Hv; cbn; [|by eexists].
  apply elem_of_cons in Hin as [->|Hin]; [congruence|].
  destruct (IH Hin Hp) as [key ->]. by eexists.
Qed.

Lemma elem_of_missing_argnames (arg_names funcargs : list string) (x : string) :
  x ∈ missing_argnames arg_names funcargs ↔ x ∈ arg_names ∧ x ∉ funcargs.
Proof.
  unfold missing_argnames.
  by rewrite elem_of_elements, elem_of_difference, !elem_of_list_to_set.
Qed.

Lemma modifyitems_raises (item : Item) (e : exn) (s : Store) :
  uncollect_cond item = Err e →
  pytest_collection_modifyitems [item] s = (Err e, mkStore [] (uncollection_stats s)).
Proof.
  intros H. unfold pytest_collection_modifyitems, bind, open_w. cbn.
  unfold bind, lift. by rewrite H.
Qed.

(** C2, as the documentation has it, fails in what the message names:
    the predicate declares [a] and [foo], both among the test's
    fixtures; [a] is bound and [foo] is not.  The exception is raised,
    and its message does not mention [foo]. *)
Lemma unbound_fixture_is_not_named :
  let item := test_not_ready in
  let values := global_vars item ∪ {[ "a" := VInt 1 ]} in
  get_marker item "uncollectif" = Some (mark_info [always_a_foo] ∅)
  ∧ (f ←ᵣ get_uncollect_function (mark_info [always_a_foo] ∅); getargspec f)
    = Ok ["a"; "foo"]
  ∧ extract_fixtures_values item = Ok {[ "a" := VInt 1 ]}
  ∧ values !! "foo" = None
  ∧ values !! "a" = Some (VInt 1)
  ∧ ∃ msg, uncollectif item = Err (Exception msg)
           ∧ is_substring "foo" msg = false.
Proof.
  repeat split; try (vm_compute; reflexivity).
  eexists. split; vm_compute; reflexivity.
Qed.

(** C2, amended: when a declared parameter of the predicate cannot be
    bound from the fixture values and the appliance while another
    declared parameter can, [uncollectif] raises an [Exception], which
    the pass lets through for an item without the 'uncollect' marker.
    The message names the test.  It names parameters only when some
    declared parameter is not among the test's own fixture names, and
    then it lists exactly those; otherwise it reads "Failed to uncollect
    <name>, best guess a fixture wasn't ready". *)
Theorem unbound_parameter_raises (item : Item) (marker : MarkerObj) (f : PyObj)
    (arg_names : list string) (bindings : gmap string value)
    (p q : string) (v : value) :
  get_marker item "uncollectif" = Some marker →
  get_uncollect_function marker = Ok f →
  getargspec f = Ok arg_names →
  extract_fixtures_values item = Ok bindings →
  p ∈ arg_names → (global_vars item ∪ bindings) !! p = None →
  q ∈ arg_names → (global_vars item ∪ bindings) !! q = Some v →
  let missing := missing_argnames arg_names (funcargnames item) in
  ∃ msg,
    uncollectif item = Err (Exception msg)
    ∧ (get_marker item "uncollect" = None →
       ∀ s, fst (pytest_collection_modifyitems [item] s) = Err (Exception msg))
    ∧ is_substring (name item) msg = true
    ∧ (∀ x, x ∈ arg_names → x ∉ funcargnames item →
         msg = msg_not_in_prototype (name item) missing
         ∧ is_substring (repr_name x) msg = true)
    ∧ ((∀ x, x ∈ arg_names → x ∈ funcargnames item) →
         msg = msg_not_ready (name item)).
Proof.
  intros Hm Hf Hspec Hfix Hp Hpv Hq Hqv missing.
  destruct (lookup_args_missing _ _ _ Hp Hpv) as [key Hkey].
  set (msg := if bool_decide (missing ≠ [])
              then msg_not_in_prototype (name item) missing
              else msg_not_ready (name item)).
  assert (Hu : uncollectif item = Err (Exception msg)).
  { unfold uncollectif. rewrite Hm, Hf. cbn. rewrite Hspec.
    unfold bind_args. rewrite Hfix. cbn.
    assert (bool_decide (arg_names ≠ [])
            && bool_decide (global_vars item ∪ bindings = ∅) = false) as ->.
    { apply andb_false_iff. right. apply bool_decide_eq_false_2.
      intros Hempty. by rewrite Hempty, lookup_empty in Hqv. }
    rewrite Hkey. cbn. subst msg missing. by case_bool_decide. }
  exists msg. split; [done|]. split; [|split; [|split]].
  - intros Hnone s. rewrite (modifyitems_raises item (Exception msg)); [done|].
    unfold uncollect_cond. by rewrite Hnone, Hu.
  - subst msg. case_bool_decide.
    + unfold msg_not_in_prototype. apply is_substring_app.
    + unfold msg_not_ready. apply is_substring_app.
  - intros x Hx Hnot.
    assert (Hin : x ∈ missing) by (by apply elem_of_missing_argnames).
    assert (Hne : missing ≠ []) by (intros Hnil; by rewrite Hnil in Hin; apply not_elem_of_nil in Hin).
    subst msg. rewrite (bool_decide_eq_true_2 _ Hne). split; [done|].
    destruct (join_comma_elem (repr_name x) (repr_name <$> missing)) as (a & b & Hab).
    { by apply list_elem_of_fmap_2. }
    unfold msg_not_in_prototype, repr_names. rewrite Hab.
    rewrite <- !string_app_assoc.
    rewrite (string_app_assoc _ (repr_name x) b).
    rewrite (string_app_assoc _ (repr_name x +:+ b) "]").
    rewrite (string_app_assoc (repr_name x) b "]").
    apply is_substring_app.
  - intros Hall.
    assert (Hnil : missing = []).
    { apply elem_of_nil_inv. intros x [Hx Hnot]%elem_of_missing_argnames. by apply Hnot, Hall. }
    subst msg. by rewrite Hnil, bool_decide_eq_false_2 by (intros H; by apply H).
Qed.

Lemma unbound_parameter_raises_witness :
  let item := test_mixed in
  let missing := missing_argnames ["a"; "foo"] (funcargnames item) in
  ∃ msg,
    uncollectif item = Err (Exception msg)
    ∧ (get_marker item "uncollect" = None →
       ∀ s, fst (pytest_collection_modifyitems [item] s) = Err (Exception msg))
    ∧ is_substring (name item) msg = true
    ∧ (∀ x, x ∈ ["a"; "foo"] → x ∉ funcargnames item →
         msg = msg_not_in_prototype (name item) missing
         ∧ is_substring (repr_name x) msg = true)
    ∧ ((∀ x, x ∈ ["a"; "foo"] → x ∈ funcargnames item) →
         msg = msg_not_ready (name item)).
Proof.
  intros item.
  apply (unbound_parameter_raises item (mark_info [always_a_foo] ∅) always_a_foo
           ["a"; "foo"] {[ "a" := VInt 1 ]} "foo" "a" (VInt 1));
    try (vm_compute; reflexivity).
  - apply list_elem_of_further, list_elem_of_here.
  - apply list_elem_of_here.
Defined.

(** The two messages, on the documentation's scenario D and on a test
    whose fixture is declared and not bound. *)
Example messages_of_scenarios :
  uncollectif test_d
  = Err (Exception "You asked for a fixture which wasn't in the function test_d prototype ['foo']")
  ∧ uncollectif test_mixed
  = Err (Exception "You asked for a fixture which wasn't in the function test_mixed prototype ['foo']")
  ∧ uncollectif test_not_ready
  = Err (Exception "Failed to uncollect test_nr, best guess a fixture wasn't ready").
Proof. repeat split; vm_compute; reflexivity. Qed.

(** ** Further properties of the three functions *)

(** *** get_uncollect_function without a predicate *)

Lemma get_uncollect_function_err (marker : MarkerObj) (e : exn) :
  get_uncollect_function marker = Err e ↔ e = IndexError ∧ lacks_predicate marker.
Proof.
  destruct marker as [m|m marks]; cbn.
  - destruct (args m); cbn; split; try (intros [= <-]; done); intros [? ?]; by simplify_eq.
  - destruct marks as [|first rest]; cbn.
    + split; [by intros [= <-] | by intros [-> _]].
    + destruct (args first); cbn; split; try (intros [= <-]; done);
        intros [? ?]; by simplify_eq.
Qed.

(** X1: [get_uncollect_function] fails exactly on a marker that has no
    first positional argument to give, and then with IndexError; the
    [except TypeError] of [uncollectif] does not catch it, so
    [uncollectif] raises IndexError and a pass over an item without the
    'uncollect' marker stops with it, the log file emptied and the
    statistics untouched. *)
Theorem missing_predicate_raises_index_error (item : Item) (marker : MarkerObj)
    (s : Store) :
  (∀ e, get_uncollect_function marker = Err e ↔ e = IndexError ∧ lacks_predicate marker)
  ∧ (get_marker item "uncollectif" = Some marker →
     lacks_predicate marker →
     uncollectif item = Err IndexError
     ∧ (get_marker item "uncollect" = None →
        pytest_collection_modifyitems [item] s
        = (Err IndexError, mkStore [] (uncollection_stats s)))).
Proof.
  split; [intros e; apply get_uncollect_function_err|].
  intros Hm Hlack.
  assert (Hf : get_uncollect_function marker = Err IndexError)
    by (by apply get_uncollect_function_err).
  assert (Hu : uncollectif item = Err IndexError).
  { unfold uncollectif. by rewrite Hm, Hf. }
  split; [done|]. intros Hnone. apply modifyitems_raises.
  unfold uncollect_cond. by rewrite Hnone, Hu.
Qed.

Lemma missing_predicate_raises_index_error_witness :
  uncollectif test_no_predicate = Err IndexError
  ∧ (get_marker test_no_predicate "uncollect" = None →
     pytest_collection_modifyitems [test_no_predicate] s0
     = (Err IndexError, mkStore [] (uncollection_stats s0))).
Proof.
  apply (missing_predicate_raises_index_error test_no_predicate
           (mark_info [] {[ "reason" := VStr "later" ]}) s0).
  - vm_compute. reflexivity.
  - vm_compute. reflexivity.
Defined.

(** *** Items without markers *)

Lemma unmarked_retained (item : Item) : unmarked item → retained item.
Proof.
  intros [Hu Hif]. unfold retained, uncollect_cond, uncollectif.
  by rewrite Hu, Hif.
Qed.

(** X2: a pass over items none of which carries 'uncollect' or
    'uncollectif' always returns, leaves the list as it is, leaves the
    log file empty and records the count 0. *)
Theorem unmarked_items_pass_through (items : list Item) (s : Store) :
  Forall unmarked items →
  pytest_collection_modifyitems items s
  = (Ok items, mkStore [] (<["uncollectif" := 0]> (uncollection_stats s))).
Proof.
  intros Hall.
  assert (Hret : Forall retained items)
    by (eapply Forall_impl; [exact Hall | exact unmarked_retained]).
  rewrite modifyitems_total
    by (eapply Forall_impl; [exact Hret | exact retained_decided]).
  assert (filter retained items = items) as ->.
  { clear Hall. induction Hret as [|item rest Hr _ IH]; [done|].
    rewrite (filter_cons_True retained) by done. by rewrite IH. }
  assert (filter dropped items = []) as ->; [|done].
  clear Hall. induction Hret as [|item rest Hr _ IH]; [done|].
  by rewrite (filter_cons_False dropped) by (by apply retained_not_dropped).
Qed.

Lemma unmarked_items_pass_through_witness :
  pytest_collection_modifyitems [test_plain; test_plain] s0
  = (Ok [test_plain; test_plain],
     mkStore [] (<["uncollectif" := 0]> (uncollection_stats s0))).
Proof.
  apply (unmarked_items_pass_through [test_plain; test_plain] s0).
  repeat constructor.
Defined.

(** *** A pass that raises *)

Lemma for_items_app (pre rest : list Item) :
  Forall decided pre →
  ∀ acc s,
    for_items (pre ++ rest) acc s
    = for_items rest (acc ++ filter retained pre)
        (mkStore (uncollected_log s ++ (log_line <$> filter dropped pre))
                 (uncollection_stats s)).
Proof.
  induction 1 as [|item pre Hd _ IH]; intros acc s.
  - cbn. rewrite !app_nil_r. by destruct s.
  - destruct (decided_cases _ Hd) as [Hc|Hc].
    + rewrite (filter_cons_True dropped) by done.
      rewrite (filter_cons_False retained) by (by apply retained_not_dropped_conv).
      change ((item :: pre) ++ rest) with (item :: (pre ++ rest)).
      cbn [for_items]. unfold bind at 1, lift. rewrite Hc.
      unfold bind at 1, write. rewrite IH. cbn. by rewrite <- app_assoc.
    + rewrite (filter_cons_True retained) by done.
      rewrite (filter_cons_False dropped) by (by apply retained_not_dropped).
      change ((item :: pre) ++ rest) with (item :: (pre ++ rest)).
      cbn [for_items]. unfold bind at 1, lift. rewrite Hc.
      rewrite IH. by rewrite <- app_assoc.
Qed.

(** X3: when the condition of an item raises and the conditions of the
    items before it evaluate, the pass raises that exception whatever
    follows the item; the log file then holds the records of the
    excluded items before it, and the statistics are not touched. *)
Theorem first_raising_item_aborts_pass (pre post : list Item) (item : Item)
    (e : exn) (s : Store) :
  Forall decided pre →
  uncollect_cond item = Err e →
  pytest_collection_modifyitems (pre ++ item :: post) s
  = (Err e, mkStore (log_line <$> filter dropped pre) (uncollection_stats s)).
Proof.
  intros Hpre He. unfold pytest_collection_modifyitems, bind at 1, open_w.
  unfold bind at 1. rewrite (for_items_app _ _ Hpre).
  cbn [for_items]. unfold bind at 1, lift. by rewrite He.
Qed.

Lemma first_raising_item_aborts_pass_witness :
  pytest_collection_modifyitems
    ([test_x "vmware"; test_plain] ++ test_d :: [test_flaky]) s0
  = (Err (Exception
            "You asked for a fixture which wasn't in the function test_d prototype ['foo']"),
     mkStore (log_line <$> filter dropped [test_x "vmware"; test_plain])
             (uncollection_stats s0)).
Proof.
  apply (first_raising_item_aborts_pass [test_x "vmware"; test_plain] [test_flaky] test_d).
  - repeat constructor; eexists; vm_compute; reflexivity.
  - vm_compute. reflexivity.
Defined.

(** *** What the log file holds after a pass *)

Lemma for_items_log (items : list Item) :
  ∀ acc s line,
    line ∈ uncollected_log (snd (for_items items acc s)) →
    line ∈ uncollected_log s
    ∨ ∃ item, item ∈ items ∧ dropped item ∧ line = log_line item.
Proof.
  induction items as [|item rest IH]; intros acc s line; [by left|].
  cbn [for_items]. unfold bind at 1, lift.
  destruct (uncollect_cond item) as [[]|e] eqn:Hc.
  - unfold bind at 1, write. intros [Hin|(it & Hit & Hd & ->)]%IH.
    + cbn in Hin. apply elem_of_app in Hin as [Hin|Hin]; [by left|].
      apply list_elem_of_singleton in Hin as ->.
      right. exists item. split; [apply list_elem_of_here | done].
    + right. exists it. split; [by apply list_elem_of_further | done].
  - intros [Hin|(it & Hit & Hd & ->)]%IH; [by left|].
    right. exists it. split; [by apply list_elem_of_further | done].
  - by left.
Qed.

(** X4: the log file is written anew by every pass: whether the pass
    returns or raises, every record the file holds afterwards is the
    record of an excluded item of this pass, whatever the file held
    before. *)
Theorem log_holds_only_records_of_this_pass (items : list Item) (s : Store)
    (line : string) :
  line ∈ uncollected_log (snd (pytest_collection_modifyitems items s)) →
  ∃ item, item ∈ items ∧ dropped item ∧ line = log_line item.
Proof.
  unfold pytest_collection_modifyitems, bind at 1, open_w. unfold bind at 1.
  destruct (for_items items [] (mkStore [] (uncollection_stats s)))
    as [[new_items|e] s1] eqn:Hf.
  - cbn. intros Hin.
    destruct (for_items_log items [] (mkStore [] (uncollection_stats s)) line)
      as [Hstale|H]; [by rewrite Hf| |done].
    by apply not_elem_of_nil in Hstale.
  - cbn. intros Hin.
    destruct (for_items_log items [] (mkStore [] (uncollection_stats s)) line)
      as [Hstale|H]; [by rewrite Hf| |done].
    by apply not_elem_of_nil in Hstale.
Qed.

Lemma log_holds_only_records_of_this_pass_witness :
  ∃ item, item ∈ [test_x "vmware"; test_d]
          ∧ dropped item
          ∧ "test_x - No reason given" +:+ newline = log_line item.
Proof.
  apply (log_holds_only_records_of_this_pass [test_x "vmware"; test_d] s0).
  vm_compute. apply list_elem_of_here.
Defined.

(** *** Passes over parts of a list *)

(** X5: a pass over a concatenation does what the passes over the two
    parts do: when both return, it returns the kept items of the first
    followed by those of the second, the log file holds the records of
    the first followed by those of the second, and the count is the sum
    of the two counts. *)
Theorem pass_over_concatenation (items1 items2 kept1 kept2 : list Item)
    (s s1 s2 : Store) :
  pytest_collection_modifyitems items1 s = (Ok kept1, s1) →
  pytest_collection_modifyitems items2 s = (Ok kept2, s2) →
  pytest_collection_modifyitems (items1 ++ items2) s
  = (Ok (kept1 ++ kept2),
     mkStore (uncollected_log s1 ++ uncollected_log s2)
             (<["uncollectif" := Z.of_nat (length (uncollected_log s1))
                                 + Z.of_nat (length (uncollected_log s2))]>
                (uncollection_stats s))).
Proof.
  intros (Hd1 & -> & -> & _)%modifyitems_inv (Hd2 & -> & -> & _)%modifyitems_inv.
  rewrite modifyitems_total by (by apply Forall_app).
  rewrite !filter_app, fmap_app, length_app, !length_fmap.
  do 3 f_equal. lia.
Qed.

Lemma pass_over_concatenation_witness :
  let items1 := [test_x "vmware"; test_plain] in
  let items2 := [test_x "virtualcenter"; test_flaky] in
  let s1 := snd (pytest_collection_modifyitems items1 s0) in
  let s2 := snd (pytest_collection_modifyitems items2 s0) in
  pytest_collection_modifyitems (items1 ++ items2) s0
  = (Ok ([test_plain] ++ [test_x "virtualcenter"]),
     mkStore (uncollected_log s1 ++ uncollected_log s2)
             (<["uncollectif" := Z.of_nat (length (uncollected_log s1))
                                 + Z.of_nat (length (uncollected_log s2))]>
                (uncollection_stats s0))).
Proof.
  intros items1 items2 s1 s2.
  apply (pass_over_concatenation items1 items2 [test_plain] [test_x "virtualcenter"]
           s0 s1 s2); vm_compute; reflexivity.
Defined.

(** *** Calling the predicate *)

Lemma bind_args_bound (item : Item) (arg_names : list string)
    (bindings : gmap string value) (vs : list value) :
  extract_fixtures_values item = Ok bindings →
  Forall2 (λ arg v, (global_vars item ∪ bindings) !! arg = Some v) arg_names vs →
  bind_args item arg_names = Ok (Args vs).
Proof.
  intros Hfix Hvs. unfold bind_args. rewrite Hfix. cbn.
  assert (bool_decide (arg_names ≠ [])
          && bool_decide (global_vars item ∪ bindings = ∅) = false) as ->.
  { destruct Hvs as [|arg v ? ? Hv _]; [done|].
    apply andb_false_iff. right. apply bool_decide_eq_false_2.
    intros Hempty. by rewrite Hempty, lookup_empty in Hv. }
  apply lookup_args_Forall2 in Hvs. by rewrite Hvs.
Qed.

Lemma uncollectif_calls (item : Item) (marker : MarkerObj) (f g : PyObj)
    (arg_names : list string) (bindings : gmap string value) (vs : list value)
    (rest : list PyObj) :
  get_marker item "uncollectif" = Some marker →
  get_uncollect_function marker = Ok f →
  getargspec f = Ok arg_names →
  extract_fixtures_values item = Ok bindings →
  Forall2 (λ arg v, (global_vars item ∪ bindings) !! arg = Some v) arg_names vs →
  args (marker_mark marker) = g :: rest →
  uncollectif item = (retval ←ᵣ call_obj g vs; Ok (Some (negb (truthy retval)))).
Proof.
  intros Hm Hf Hspec Hfix Hvs Ha. unfold uncollectif.
  rewrite Hm, Hf. cbn. rewrite Hspec, (bind_args_bound _ _ _ _ Hfix Hvs), Ha.
  reflexivity.
Qed.

(** X6: when every declared parameter of the predicate is bound, in
    the fixture values or as the appliance, [uncollectif] calls the
    marker's first argument on the bound values in the order of the
    declaration; when the call returns, [uncollectif] returns the
    negation of the truth value of the result, so that an item without
    the 'uncollect' marker is excluded exactly when the result is truthy
    and kept exactly when it is falsy. *)
Theorem bound_predicate_decides (item : Item) (marker : MarkerObj) (f g : PyObj)
    (arg_names : list string) (bindings : gmap string value) (vs : list value)
    (rest : list PyObj) (retval : value) :
  get_marker item "uncollectif" = Some marker →
  get_uncollect_function marker = Ok f →
  getargspec f = Ok arg_names →
  extract_fixtures_values item = Ok bindings →
  Forall2 (λ arg v, (global_vars item ∪ bindings) !! arg = Some v) arg_names vs →
  args (marker_mark marker) = g :: rest →
  call_obj g vs = Ok retval →
  uncollectif item = Ok (Some (negb (truthy retval)))
  ∧ (get_marker item "uncollect" = None →
     (dropped item ↔ truthy retval = true)
     ∧ (retained item ↔ truthy retval = false)).
Proof.
  intros Hm Hf Hspec Hfix Hvs Ha Hcall.
  assert (Hu : uncollectif item = Ok (Some (negb (truthy retval)))).
  { rewrite (uncollectif_calls _ _ _ _ _ _ _ _ Hm Hf Hspec Hfix Hvs Ha), Hcall.
    reflexivity. }
  split; [done|]. intros Hnone.
  assert (Hc : uncollect_cond item = Ok (truthy retval)).
  { unfold uncollect_cond. rewrite Hnone, Hu. cbn. by rewrite negb_involutive. }
  unfold dropped, retained. rewrite Hc. split; split; congruence.
Qed.

Lemma bound_predicate_decides_witness :
  let item := test_x "virtualcenter" in
  uncollectif item = Ok (Some (negb (truthy (VBool false))))
  ∧ (get_marker item "uncollect" = None →
     (dropped item ↔ truthy (VBool false) = true)
     ∧ (retained item ↔ truthy (VBool false) = false)).
Proof.
  intros item.
  apply (bound_predicate_decides item (mark_info [not_virtualcenter] ∅)
           not_virtualcenter not_virtualcenter ["provider_type"]
           {[ "provider_type" := VStr "virtualcenter" ]} [VStr "virtualcenter"] []);
    try (vm_compute; reflexivity).
  repeat constructor.
Defined.

(** X7: an exception the predicate raises when it is called leaves
    [uncollectif] as it is; the call stands after the [try] block, so
    even a KeyError of the predicate is not turned into the message
    about fixtures. *)
Theorem predicate_exception_passes_through (item : Item) (marker : MarkerObj)
    (f g : PyObj) (arg_names : list string) (bindings : gmap string value)
    (vs : list value) (rest : list PyObj) (e : exn) :
  get_marker item "uncollectif" = Some marker →
  get_uncollect_function marker = Ok f →
  getargspec f = Ok arg_names →
  extract_fixtures_values item = Ok bindings →
  Forall2 (λ arg v, (global_vars item ∪ bindings) !! arg = Some v) arg_names vs →
  args (marker_mark marker) = g :: rest →
  call_obj g vs = Err e →
  uncollectif item = Err e.
Proof.
  intros Hm Hf Hspec Hfix Hvs Ha Hcall.
  rewrite (uncollectif_calls _ _ _ _ _ _ _ _ Hm Hf Hspec Hfix Hvs Ha), Hcall.
  reflexivity.
Qed.

Lemma predicate_exception_passes_through_witness :
  uncollectif test_raises = Err (KeyError "vmware").
Proof.
  apply (predicate_exception_passes_through test_raises
           (mark_info [raises_key_error] ∅) raises_key_error raises_key_error
           ["provider_type"] {[ "provider_type" := VStr "vmware" ]} [VStr "vmware"] []);
    try (vm_compute; reflexivity).
  repeat constructor.
Defined.

(** X8: a predicate without parameters is called, without arguments,
    whatever the fixture values are, also when there is no value at
    all: the early return for the empty context asks for declared
    parameters. *)
Theorem parameterless_predicate_is_called (item : Item) (marker : MarkerObj)
    (f g : PyObj) (bindings : gmap string value) (rest : list PyObj) :
  get_marker item "uncollectif" = Some marker →
  get_uncollect_function marker = Ok f →
  getargspec f = Ok [] →
  extract_fixtures_values item = Ok bindings →
  args (marker_mark marker) = g :: rest →
  uncollectif item = (retval ←ᵣ call_obj g []; Ok (Some (negb (truthy retval)))).
Proof.
  intros Hm Hf Hspec Hfix Ha.
  by apply (uncollectif_calls item marker f g [] bindings [] rest).
Qed.

Lemma parameterless_predicate_is_called_witness :
  extract_fixtures_values test_always = Ok ∅
  ∧ uncollectif test_always
    = (retval ←ᵣ call_obj always []; Ok (Some (negb (truthy retval))))
  ∧ uncollectif test_always = Ok (Some false).
Proof.
  split; [reflexivity|]. split; [|vm_compute; reflexivity].
  apply (parameterless_predicate_is_called test_always (mark_info [always] ∅)
           always always ∅ []); vm_compute; reflexivity.
Defined.

(** X9: with the appliance holder registered, a parameter called
    [appliance] is bound to the held appliance, also when the test has
    a fixture of that name: [values.update(global_vars)] writes over the
    fixture value. *)
Theorem appliance_parameter_is_the_held_appliance (item : Item) (marker : MarkerObj)
    (f g : PyObj) (holder : Plugin) (bindings : gmap string value)
    (rest : list PyObj) :
  get_marker item "uncollectif" = Some marker →
  get_uncollect_function marker = Ok f →
  getargspec f = Ok ["appliance"] →
  getplugin (config item) "appliance-holder" = Some holder →
  extract_fixtures_values item = Ok bindings →
  args (marker_mark marker) = g :: rest →
  uncollectif item
  = (retval ←ᵣ call_obj g [held_appliance holder]; Ok (Some (negb (truthy retval)))).
Proof.
  intros Hm Hf Hspec Hplug Hfix Ha.
  apply (uncollectif_calls item marker f g ["appliance"] bindings
           [held_appliance holder] rest); try done.
  repeat constructor. unfold global_vars. rewrite Hplug.
  apply lookup_union_Some_l, lookup_singleton_eq.
Qed.

Lemma appliance_parameter_is_the_held_appliance_witness :
  extract_fixtures_values test_appliance = Ok {[ "appliance" := VStr "from the fixture" ]}
  ∧ uncollectif test_appliance
    = (retval ←ᵣ call_obj is_fixture_appliance [VObj "<IPAppliance>"];
       Ok (Some (negb (truthy retval))))
  ∧ uncollectif test_appliance = Ok (Some true).
Proof.
  split; [reflexivity|]. split; [|vm_compute; reflexivity].
  apply (appliance_parameter_is_the_held_appliance test_appliance
           (mark_info [is_fixture_appliance] ∅) is_fixture_appliance
           is_fixture_appliance (mkPlugin (VObj "<IPAppliance>"))
           {[ "appliance" := VStr "from the fixture" ]} []);
    vm_compute; reflexivity.
Defined.

(** *** What uncollectif can raise, and when it returns nothing *)

Lemma lookup_args_err (values : gmap string value) (arg_names : list string)
    (e : exn) :
  lookup_args values arg_names = Err e → ∃ key, e = KeyError key.
Proof.
  induction arg_names as [|arg rest IH]; cbn; [discriminate|].
  unfold getitem. destruct (values !! arg); cbn; [|intros [= <-]; by eexists].
  destruct (lookup_args values rest); cbn; [discriminate|].
  intros [= <-]. by apply IH.
Qed.

(** X10: an exception of [uncollectif] is one of four: IndexError,
    when the marker has no first positional argument; the module's own
    [Exception] with one of its two messages, when binding the declared
    parameters met a KeyError; an exception of the fixture lookup that
    is not a KeyError; or the exception of the call of the predicate.
    The TypeError of the introspection and the KeyError of the binding
    never leave the function. *)
Theorem uncollectif_exceptions (item : Item) (e : exn) :
  uncollectif item = Err e →
  ∃ marker,
    get_marker item "uncollectif" = Some marker
    ∧ ((e = IndexError
        ∧ (lacks_predicate marker ∨ args (marker_mark marker) = []))
       ∨ (∃ arg_names,
            (f ←ᵣ get_uncollect_function marker; getargspec f) = Ok arg_names
            ∧ (e = Exception (msg_not_in_prototype (name item)
                                (missing_argnames arg_names (funcargnames item)))
               ∨ e = Exception (msg_not_ready (name item))))
       ∨ (extract_fixtures_values item = Err e ∧ ∀ key, e ≠ KeyError key)
       ∨ (∃ g rest vs, args (marker_mark marker) = g :: rest ∧ call_obj g vs = Err e)).
Proof.
  unfold uncollectif.
  destruct (get_marker item "uncollectif") as [marker|] eqn:Hm; [|discriminate].
  intros H. exists marker. split; [done|]. revert H.
  destruct (get_uncollect_function marker) as [f|e'] eqn:Hf; cbn.
  2: { apply get_uncollect_function_err in Hf as [-> Hlack].
       intros [= <-]. left. split; [done | by left]. }
  destruct (getargspec f) as [arg_names|e'] eqn:Hspec.
  2: { pose proof (getargspec_err _ _ Hspec) as ->.
       destruct (args (marker_mark marker)) as [|a rest] eqn:Ha; cbn; [|discriminate].
       intros [= <-]. left. split; [done | by right]. }
  unfold bind_args.
  destruct (extract_fixtures_values item) as [bindings|e'] eqn:Hfix; cbn.
  2: { destruct e'; try (intros [= <-]; right; right; left; split; [done|];
                         intros key; discriminate).
       destruct (bool_decide (missing_argnames _ _ ≠ [])); intros [= <-];
         right; left; exists arg_names; (split; [done|]); [by left | by right]. }
  destruct (bool_decide (arg_names ≠ []) && bool_decide (global_vars item ∪ bindings = ∅));
    [discriminate|].
  destruct (lookup_args (global_vars item ∪ bindings) arg_names) as [vs|e'] eqn:Hl; cbn.
  2: { destruct (lookup_args_err _ _ _ Hl) as [key ->].
       destruct (bool_decide (missing_argnames _ _ ≠ [])); intros [= <-];
         right; left; exists arg_names; (split; [done|]); [by left | by right]. }
  destruct (args (marker_mark marker)) as [|g rest] eqn:Ha; cbn.
  { intros [= <-]. left. split; [done | by right]. }
  destruct (call_obj g vs) as [retval|e'] eqn:Hcall; cbn; [discriminate|].
  intros [= <-]. right. right. right. by exists g, rest, vs.
Qed.

Lemma uncollectif_exceptions_witness :
  let e := Exception "You asked for a fixture which wasn't in the function test_d prototype ['foo']" in
  ∃ marker,
    get_marker test_d "uncollectif" = Some marker
    ∧ ((e = IndexError
        ∧ (lacks_predicate marker ∨ args (marker_mark marker) = []))
       ∨ (∃ arg_names,
            (f ←ᵣ get_uncollect_function marker; getargspec f) = Ok arg_names
            ∧ (e = Exception (msg_not_in_prototype (name test_d)
                                (missing_argnames arg_names (funcargnames test_d)))
               ∨ e = Exception (msg_not_ready (name test_d))))
       ∨ (extract_fixtures_values test_d = Err e ∧ ∀ key, e ≠ KeyError key)
       ∨ (∃ g rest vs, args (marker_mark marker) = g :: rest ∧ call_obj g vs = Err e)).
Proof.
  intros e. apply (uncollectif_exceptions test_d e).
  vm_compute. reflexivity.
Defined.

Lemma global_vars_union_empty (item : Item) (bindings : gmap string value) :
  global_vars item ∪ bindings = ∅
  ↔ bindings = ∅ ∧ getplugin (config item) "appliance-holder" = None.
Proof.
  unfold global_vars. split.
  - intros H. pose proof (map_positive_l _ _ H) as Hg.
    destruct (getplugin (config item) "appliance-holder").
    + by apply map_non_empty_singleton in Hg.
    + by rewrite (left_id_L ∅ (∪)) in H.
  - intros [-> ->]. by rewrite (left_id_L ∅ (∪)).
Qed.

(** X11: [uncollectif] returns nothing (the bare [return]) exactly when
    the item carries the 'uncollectif' marker, its predicate is a plain
    function that declares at least one parameter, the fixture values
    are empty and no 'appliance-holder' plugin is registered.  With the
    holder registered it never does. *)
Theorem bare_return_iff_empty_context (item : Item) :
  (uncollectif item = Ok None
   ↔ ∃ marker f arg_names,
       get_marker item "uncollectif" = Some marker
       ∧ get_uncollect_function marker = Ok f
       ∧ getargspec f = Ok arg_names
       ∧ arg_names ≠ []
       ∧ extract_fixtures_values item = Ok ∅
       ∧ getplugin (config item) "appliance-holder" = None)
  ∧ (is_Some (getplugin (config item) "appliance-holder") →
     uncollectif item ≠ Ok None).
Proof.
  assert (Hiff : uncollectif item = Ok None
   ↔ ∃ marker f arg_names,
       get_marker item "uncollectif" = Some marker
       ∧ get_uncollect_function marker = Ok f
       ∧ getargspec f = Ok arg_names
       ∧ arg_names ≠ []
       ∧ extract_fixtures_values item = Ok ∅
       ∧ getplugin (config item) "appliance-holder" = None).
  { split.
    - unfold uncollectif.
      destruct (get_marker item "uncollectif") as [marker|] eqn:Hm; [|discriminate].
      destruct (get_uncollect_function marker) as [f|e] eqn:Hf; cbn.
      2: { apply get_uncollect_function_err in Hf as [-> _]. discriminate. }
      destruct (getargspec f) as [arg_names|e] eqn:Hspec.
      2: { pose proof (getargspec_err _ _ Hspec) as ->.
           by destruct (args (marker_mark marker)). }
      unfold bind_args.
      destruct (extract_fixtures_values item) as [bindings|e] eqn:Hfix; cbn.
      2: { destruct e; try discriminate.
           destruct (bool_decide (missing_argnames _ _ ≠ [])); discriminate. }
      destruct (bool_decide (arg_names ≠ [])
                && bool_decide (global_vars item ∪ bindings = ∅)) eqn:Hempty.
      { intros _.
        apply andb_true_iff in Hempty
          as [Hne%bool_decide_eq_true Hvals%bool_decide_eq_true].
        apply global_vars_union_empty in Hvals as [-> Hplug].
        by exists marker, f, arg_names. }
      destruct (lookup_args (global_vars item ∪ bindings) arg_names) as [vs|e]; cbn.
      2: { destruct e; try discriminate.
           destruct (bool_decide (missing_argnames _ _ ≠ [])); discriminate. }
      destruct (args (marker_mark marker)) as [|g rest]; cbn; [discriminate|].
      destruct (call_obj g vs); cbn; discriminate.
    - intros (marker & f & arg_names & Hm & Hf & Hspec & Hne & Hfix & Hplug).
      unfold uncollectif. rewrite Hm, Hf. cbn. rewrite Hspec.
      unfold bind_args. rewrite Hfix. cbn.
      rewrite (bool_decide_eq_true_2 _ Hne).
      by rewrite bool_decide_eq_true_2 by (by apply global_vars_union_empty). }
  split; [exact Hiff|].
  intros [holder Hplug] (? & ? & ? & _ & _ & _ & _ & _ & Hnone)%Hiff. congruence.
Qed.

Lemma bare_return_iff_empty_context_witness :
  uncollectif (test_e with_holder) ≠ Ok None.
Proof.
  apply (proj2 (bare_return_iff_empty_context (test_e with_holder))).
  eexists. vm_compute. reflexivity.
Defined.

(** *** The two shapes of a marker, seen from the hook *)

(** X12: the hook does not see which shape a marker has: an item whose
    'uncollectif' marker is a decorator, and the same item with the
    marker as an iterable that has the same arguments and yields them
    first, get the same answer from [uncollectif], the same decision and
    the same record. *)
Theorem marker_shape_makes_no_difference (nm : string)
    (kw : gmap string MarkerObj) (cfg : Config)
    (fx : result (gmap string value)) (fa : list string)
    (mk : Mark) (marks : list Mark) :
  let item1 := mkItem nm (<["uncollectif" := MarkDecorator mk]> kw) cfg fx fa in
  let item2 := mkItem nm (<["uncollectif" := MarkInfo mk (mk :: marks)]> kw) cfg fx fa in
  uncollectif item1 = uncollectif item2
  ∧ uncollect_cond item1 = uncollect_cond item2
  ∧ log_line item1 = log_line item2.
Proof.
  intros item1 item2.
  assert (Hu : uncollectif item1 = uncollectif item2).
  { unfold uncollectif, get_marker, item1, item2. cbn.
    by rewrite !lookup_insert_eq. }
  assert (Hm : get_marker item1 "uncollect" = get_marker item2 "uncollect").
  { unfold get_marker, item1, item2. cbn. by rewrite !lookup_insert_ne. }
  split; [done|]. split.
  - unfold uncollect_cond. by rewrite Hm, Hu.
  - unfold log_line. rewrite Hm.
    destruct (get_marker item2 "uncollect"); [done|].
    unfold get_marker, item1, item2. cbn. by rewrite !lookup_insert_eq.
Qed.

(** *** The items a pass keeps *)

Lemma retained_inv (item : Item) :
  retained item →
  get_marker item "uncollect" = None ∧ uncollectif item = Ok (Some true).
Proof.
  unfold retained, uncollect_cond.
  destruct (get_marker item "uncollect"); [discriminate|].
  destruct (uncollectif item) as [[[]|]|]; cbn; try discriminate. done.
Qed.

(** X13: when a pass returns, every item it keeps is an item of the
    input that does not carry the 'uncollect' marker and for which
    [uncollectif] returned [True]; an item for which it returned [False]
    or nothing, or that carries 'uncollect', is never kept. *)
Theorem kept_items_passed_both_tests (items : list Item) (s : Store)
    (new_items : list Item) (s' : Store) :
  pytest_collection_modifyitems items s = (Ok new_items, s') →
  ∀ item, item ∈ new_items →
    item ∈ items
    ∧ get_marker item "uncollect" = None
    ∧ uncollectif item = Ok (Some true).
Proof.
  intros (_ & -> & _)%modifyitems_inv item [Hr Hin]%list_elem_of_filter.
  split; [done|]. by apply retained_inv.
Qed.

Lemma kept_items_passed_both_tests_witness :
  let item := test_x "virtualcenter" in
  item ∈ [test_both; item; test_x "vmware"; test_lit (VBool true)]
  ∧ get_marker item "uncollect" = None
  ∧ uncollectif item = Ok (Some true).
Proof.
  intros item.
  apply (kept_items_passed_both_tests
           [test_both; item; test_x "vmware"; test_lit (VBool true)] s0 [item]
           (snd (pytest_collection_modifyitems
                   [test_both; item; test_x "vmware"; test_lit (VBool true)] s0))).
  - vm_compute. reflexivity.
  - apply list_elem_of_here.
Defined.
